(** * The chat proxy of [app.py]

    A shallow embedding of the Flask application in [src/app.py]: the
    module-level initialisation of the model client (lines 14-48) and the
    [/chat] view function (lines 58-81), followed by the properties of the
    request/response contract.

    Python values are embedded as an inductive type, the module globals as a
    record threaded through a state-and-exception monad, [os.environ] and
    JSON objects as finite maps.  What the code obtains from outside the
    repository (the constructor of the model client, the remote call
    [llm.invoke], the parsing done by [request.json]) enters as data:
    an outcome that is either a value or a raised exception. *)

From Stdlib Require Import PrimFloat.
From stdpp Require Import gmap strings list fin_maps.

Set Warnings "-register-all,-inexact-float".
Local Open Scope string_scope.

(** ** Python values *)

(** The values [json.loads] produces, which is what [request.json] holds and
    what [jsonify] serialises.  [PFloat] is an IEEE binary64, as in CPython. *)
Inductive pyval : Type :=
  | PNone
  | PBool (b : bool)
  | PInt (n : Z)
  | PFloat (x : float)
  | PStr (s : string)
  | PList (items : list pyval)
  | PDict (fields : gmap string pyval).

(** [bool(v)], the test behind [not v] and [if v]. *)
Definition truthy (v : pyval) : bool :=
  match v with
  | PNone => false
  | PBool b => b
  | PInt n => negb (n =? 0)%Z
  | PFloat x => negb (PrimFloat.eqb x 0%float)
  | PStr s => negb (String.eqb s "")
  | PList items => match items with [] => false | _ :: _ => true end
  | PDict fields => negb (bool_decide (fields = ∅))
  end.

(** [type(v).__name__], as it appears in the text of an [AttributeError]. *)
Definition type_name (v : pyval) : string :=
  match v with
  | PNone => "NoneType"
  | PBool _ => "bool"
  | PInt _ => "int"
  | PFloat _ => "float"
  | PStr _ => "str"
  | PList _ => "list"
  | PDict _ => "dict"
  end.

(** ** Substring test: [needle in haystack] on [str] *)

Fixpoint contains (needle haystack : string) : bool :=
  if String.prefix needle haystack then true
  else match haystack with
       | EmptyString => false
       | String _ rest => contains needle rest
       end.

(** The declarative reading of [in]: the needle occurs somewhere. *)
Definition occurs_in (needle haystack : string) : Prop :=
  ∃ before after, haystack = before +:+ needle +:+ after.

(** ** Exceptions *)

(** An instance of Python's [Exception] class, which is what both
    [except Exception as e] clauses of the file match: the errors a call
    raises.  Interpreter signals that derive from [BaseException] only
    ([KeyboardInterrupt], [SystemExit]) are not values of this type.
    [exc_str] is [str(e)], the text an f-string interpolates and the handler
    searches. *)
Record Exception : Type := mkException {
  exc_class : string;
  exc_str : string
}.

Inductive outcome (A : Type) : Type :=
  | Returns (a : A)
  | Raises (e : Exception).
Arguments Returns {A} a.
Arguments Raises {A} e.

(** ** The model client *)

(** The object [ChatGoogleGenerativeAI(model=..., temperature=..., api_key=...,
    system_instruction=...)] evaluates to, identified with the keyword
    arguments it was built from.  [llm_api_key] is the value of the global
    [api_key] at the call, a [str] or [None]. *)
Record ChatGoogleGenerativeAI : Type := mkLLM {
  model : string;
  temperature : float;
  llm_api_key : option string;
  system_instruction : string
}.

(** ** Module globals and the monad of the module's code *)

(** The module-level names the code reads or assigns, and the standard
    output it prints to (one entry per [print] call, oldest first). *)
Record globals : Type := mkGlobals {
  api_key : option string;
  llm : option ChatGoogleGenerativeAI;
  stdout : list string
}.

Definition M (A : Type) : Type := globals → outcome A * globals.

Definition ret {A} (a : A) : M A := λ g, (Returns a, g).

Definition raise {A} (e : Exception) : M A := λ g, (Raises e, g).

Definition bind {A B} (m : M A) (k : A → M B) : M B :=
  λ g, match m g with
       | (Returns a, g') => k a g'
       | (Raises e, g') => (Raises e, g')
       end.

(** [try: body / except Exception as e: handler e]. *)
Definition try_except {A} (body : M A) (handler : Exception → M A) : M A :=
  λ g, match body g with
       | (Returns a, g') => (Returns a, g')
       | (Raises e, g') => handler e g'
       end.

(** Evaluating an expression whose outcome the environment decides. *)
Definition eval {A} (o : outcome A) : M A := λ g, (o, g).

Definition read_api_key : M (option string) := λ g, (Returns (api_key g), g).

Definition read_llm : M (option ChatGoogleGenerativeAI) :=
  λ g, (Returns (llm g), g).

Definition assign_api_key (v : option string) : M unit :=
  λ g, (Returns tt, mkGlobals v (llm g) (stdout g)).

Definition assign_llm (v : option ChatGoogleGenerativeAI) : M unit :=
  λ g, (Returns tt, mkGlobals (api_key g) v (stdout g)).

Definition print (line : string) : M unit :=
  λ g, (Returns tt, mkGlobals (api_key g) (llm g) (stdout g ++ [line])).

#[export] Instance M_ret : MRet M := @ret.
#[export] Instance M_bind : MBind M := λ A B k m, bind m k.

(** ** What Flask provides *)

(** The request as the view function sees it.  [json] is the outcome of
    evaluating the property [request.json]: the parsed body, or the
    exception Flask raises when the body cannot be read as JSON. *)
Record Request : Type := mkRequest {
  method : string;
  json : outcome pyval
}.

Record Response : Type := mkResponse {
  data : pyval;
  status_code : Z
}.

(** [jsonify(v)]: a response carrying [v], with Flask's default status. *)
Definition jsonify (v : pyval) : Response := mkResponse v 200.

(** A view returning the tuple [(response, status)]. *)
Definition with_status (rv : Response * Z) : Response :=
  mkResponse (data rv.1) rv.2.

(** [v.get(key)]: only a [dict] has the method; its default is [None]. *)
Definition call_get (v : pyval) (key : string) : M pyval :=
  match v with
  | PDict fields => ret (default PNone (fields !! key))
  | _ => raise (mkException "AttributeError"
                  ("'" +:+ type_name v +:+ "' object has no attribute 'get'"))
  end.

(** What [os.environ.get] returns, as a Python value. *)
Definition str_or_None (o : option string) : pyval :=
  match o with
  | Some s => PStr s
  | None => PNone
  end.

(** ** Module initialisation (lines 14-48) *)

Definition system_prompt : string := "
        Your name is Test. You are an advanced, general-purpose AI assistant. 
        You were created and developed by Proll. Your primary purpose is to serve 
        the users of this custom application with highly knowledgeable, friendly, 
        and enthusiastic expert guidance.

        Your core intelligence is powered by Google's cutting-edge Gemini 2.5 Flash model.
        
        Use Markdown extensively (headings, bolding, lists) to make responses easy to read. 
        CRITICAL: When providing code snippets, always wrap the code in three backticks (```) 
        specifying the language (e.g., ```python) and ensure there is an empty line before the next paragraph.
        ".

Section Startup.

(** The process environment, and the exception the constructor of the
    client raises on given arguments, if it raises one. *)
Variable environ : gmap string string.
Variable construct : ChatGoogleGenerativeAI → option Exception.

Definition new_ChatGoogleGenerativeAI (args : ChatGoogleGenerativeAI)
    : outcome ChatGoogleGenerativeAI :=
  match construct args with
  | None => Returns args
  | Some e => Raises e
  end.

Definition module_init : M unit :=
  assign_api_key (environ !! "GOOGLE_API_KEY");;
  assign_llm None;;
  try_except
    (key ← read_api_key;
     if negb (truthy (str_or_None key)) then
       print "FATAL ERROR: GOOGLE_API_KEY environment variable not set. Model not initialized.";;
       assign_llm None
     else
       client ← eval (new_ChatGoogleGenerativeAI
                        (mkLLM "gemini-2.5-flash-lite" 0.2%float
                               key system_prompt));
       assign_llm (Some client);;
       print "AI Model and Flask server initialized successfully.")
    (λ e,
       print ("FATAL ERROR: Could not initialize AI component with API key. Error: "
              +:+ exc_str e);;
       assign_llm None).

(** The globals once the module has been imported. *)
Definition startup : globals := (module_init (mkGlobals None None [])).2.

End Startup.

(** ** The [/chat] view (lines 58-81) *)

(** The remote service: what [llm.invoke(user_input)] does on a given client
    and input, the returned value being the [content] of the response. *)
Definition upstream : Type := ChatGoogleGenerativeAI → pyval → outcome pyval.

(** The methods of the route: Flask calls the view for these only. *)
Definition chat_methods : list string := ["POST"; "OPTIONS"].

Definition setup_error : pyval :=
  PDict {["response" := PStr "Server setup error: Gemini API key is missing or invalid."]}.

Definition no_message : pyval :=
  PDict {["response" := PStr "Please provide a message."]}.

Definition quota_exceeded : pyval :=
  PDict {["response" := PStr "I apologize, the free tier usage quota has been exceeded. Please try again later or consider enabling billing for higher limits."]}.

Definition apology : pyval :=
  PDict {["response" := PStr "I apologize, there was an issue processing your request. Please try again."]}.

Definition chat (invoke : upstream) (request : Request) : M Response :=
  if String.eqb (method request) "OPTIONS" then
    ret (with_status (jsonify (PDict ∅), 200%Z))
  else
    handle ← read_llm;
    match handle with
    | None => ret (with_status (jsonify setup_error, 503%Z))
    | Some client =>
        body ← eval (json request);
        user_input ← call_get body "message";
        if negb (truthy user_input) then
          ret (with_status (jsonify no_message, 400%Z))
        else
          try_except
            (content ← eval (invoke client user_input);
             ret (jsonify (PDict {["response" := content]})))
            (λ e,
               print ("Error during AI invocation: " +:+ exc_str e);;
               if contains "RESOURCE_EXHAUSTED" (exc_str e) then
                 ret (with_status (jsonify quota_exceeded, 500%Z))
               else
                 ret (with_status (jsonify apology, 500%Z)))
    end.

(** The worker serving requests one after the other, each with the behaviour
    the remote service has at that time.  Whatever a view returns or raises,
    Flask answers the client and the worker goes on with the globals as the
    view left them. *)
Fixpoint serve (history : list (upstream * Request)) (g : globals) : globals :=
  match history with
  | [] => g
  | (invoke, request) :: rest => serve rest (chat invoke request g).2
  end.

(** ** The index view (lines 52-56) *)

(** [send_file(name)] is Flask's: the response built from the file, or the
    exception raised when the file cannot be read. *)
Definition serve_index (send_file : string → outcome Response) : M Response :=
  eval (send_file "index.html").

(** ** The application: both views behind one worker *)

(** A request routed to one of the two views, with what the outside world
    does at that time. *)
Inductive call : Type :=
  | GetIndex (send_file : string → outcome Response)
  | Chat (invoke : upstream) (request : Request).

Definition handle (c : call) : M Response :=
  match c with
  | GetIndex send_file => serve_index send_file
  | Chat invoke request => chat invoke request
  end.

Fixpoint run (calls : list call) (g : globals) : globals :=
  match calls with
  | [] => g
  | c :: rest => run rest (handle c g).2
  end.

(** ** Notions used by the statements *)

(** The part of the globals that configures the proxy. *)
Definition configuration (g : globals)
    : option string * option ChatGoogleGenerativeAI :=
  (api_key g, llm g).

(** A computation that leaves the configuration as it found it, whether it
    returns or raises. *)
Definition read_only {A} (m : M A) : Prop :=
  ∀ g, configuration (m g).2 = configuration g.

(** The client the module builds from a non-empty key [key]. *)
Definition configured_client (key : string) : ChatGoogleGenerativeAI :=
  mkLLM "gemini-2.5-flash-lite" 0.2%float (Some key) system_prompt.

(** The exception of [v.get] on a value that is not a [dict]. *)
Definition no_get (v : pyval) : Exception :=
  mkException "AttributeError"
    ("'" +:+ type_name v +:+ "' object has no attribute 'get'").

(** The globals after the view has printed its line about [e]. *)
Definition logged (e : Exception) (g : globals) : globals :=
  mkGlobals (api_key g) (llm g)
    (stdout g ++ ["Error during AI invocation: " +:+ exc_str e]).

(** The value the view tests and forwards: [request.json.get("message")]. *)
Definition message_of (fields : gmap string pyval) : pyval :=
  default PNone (fields !! "message").

(** The seven ways through the view, as a relation between the situation
    and the result. *)
Inductive chat_case (invoke : upstream) (request : Request) (g : globals)
    : outcome Response * globals → Prop :=
  | case_options :
      method request = "OPTIONS" →
      chat_case invoke request g (Returns (mkResponse (PDict ∅) 200), g)
  | case_no_client :
      method request ≠ "OPTIONS" → llm g = None →
      chat_case invoke request g (Returns (mkResponse setup_error 503), g)
  | case_unreadable client e :
      method request ≠ "OPTIONS" → llm g = Some client →
      json request = Raises e →
      chat_case invoke request g (Raises e, g)
  | case_not_object client body :
      method request ≠ "OPTIONS" → llm g = Some client →
      json request = Returns body → (∀ fields, body ≠ PDict fields) →
      chat_case invoke request g (Raises (no_get body), g)
  | case_no_message client fields :
      method request ≠ "OPTIONS" → llm g = Some client →
      json request = Returns (PDict fields) →
      truthy (message_of fields) = false →
      chat_case invoke request g (Returns (mkResponse no_message 400), g)
  | case_answer client fields content :
      method request ≠ "OPTIONS" → llm g = Some client →
      json request = Returns (PDict fields) →
      truthy (message_of fields) = true →
      invoke client (message_of fields) = Returns content →
      chat_case invoke request g
        (Returns (mkResponse (PDict {["response" := content]}) 200), g)
  | case_failure client fields e :
      method request ≠ "OPTIONS" → llm g = Some client →
      json request = Returns (PDict fields) →
      truthy (message_of fields) = true →
      invoke client (message_of fields) = Raises e →
      chat_case invoke request g
        (Returns (mkResponse
                    (if contains "RESOURCE_EXHAUSTED" (exc_str e)
                     then quota_exceeded else apology) 500),
         logged e g).

(** ** Sample inputs *)

Definition sample_globals : globals :=
  mkGlobals (Some "secret") (Some (configured_client "secret")) [].

Definition unconfigured_globals : globals :=
  mkGlobals None None
    ["FATAL ERROR: GOOGLE_API_KEY environment variable not set. Model not initialized."].

Definition post (body : pyval) : Request := mkRequest "POST" (Returns body).

Definition hello : Request := post (PDict {["message" := PStr "Hello"]}).

Definition preflight : Request :=
  mkRequest "OPTIONS" (Raises (mkException "UnsupportedMediaType" "415 Unsupported Media Type")).

Definition answering (text : string) : upstream := λ _ _, Returns (PStr text).

Definition failing (e : Exception) : upstream := λ _ _, Raises e.

Definition quota_error : Exception :=
  mkException "ResourceExhausted" "429 RESOURCE_EXHAUSTED. Quota exceeded.".

Definition never_constructs : ChatGoogleGenerativeAI → option Exception :=
  λ _, Some (mkException "ValidationError" "1 validation error").

Definition relaying (content : pyval) : upstream := λ _ _, Returns content.

Definition page : string → outcome Response :=
  λ _, Returns (mkResponse (PStr "<!DOCTYPE html>") 200).

(** * Properties *)

(** ** The substring test *)

Lemma append_cons a s t : String a s +:+ t = String a (s +:+ t).
Proof. reflexivity. Qed.

Lemma prefix_app needle haystack :
  String.prefix needle haystack = true ↔ ∃ after, haystack = needle +:+ after.
Proof.
  revert haystack.
  induction needle as [|a needle IH]; intros [|b haystack]; simpl.
  - split; [by exists "" | done].
  - split; [by exists (String b haystack) | done].
  - split; [done | intros [after Hafter]; discriminate].
  - destruct (Ascii.ascii_dec a b) as [->|Hab].
    + rewrite IH. split; intros [after Hafter]; exists after;
        rewrite append_cons in *; congruence.
    + split; [done | intros [after Hafter]].
      rewrite append_cons in Hafter. congruence.
Qed.

Lemma contains_unfold needle haystack :
  contains needle haystack =
    if String.prefix needle haystack then true
    else match haystack with
         | EmptyString => false
         | String _ rest => contains needle rest
         end.
Proof. by destruct haystack. Qed.

(** The executable test decides the occurrence of the needle. *)
Lemma contains_occurs_in needle haystack :
  contains needle haystack = true ↔ occurs_in needle haystack.
Proof.
  unfold occurs_in. split.
  - induction haystack as [|c rest IH]; rewrite contains_unfold;
      destruct (String.prefix needle _) eqn:Hprefix; try done.
    + apply prefix_app in Hprefix as [after ->]. by exists "", after.
    + apply prefix_app in Hprefix as [after ->]. by exists "", after.
    + intros [before [after ->]]%IH. by exists (String c before), after.
  - intros [before [after ->]].
    induction before as [|c before IH]; rewrite contains_unfold.
    + replace (String.prefix needle _) with true; [done|].
      symmetry. apply prefix_app. by exists after.
    + by destruct (String.prefix needle _).
Qed.

Lemma contains_not_occurs_in needle haystack :
  contains needle haystack = false ↔ ¬ occurs_in needle haystack.
Proof.
  rewrite <- contains_occurs_in. by destruct (contains needle haystack).
Qed.

(** The test on the texts of two exceptions, and on values of [message]. *)
Example contains_quota_text :
  contains "RESOURCE_EXHAUSTED" (exc_str quota_error) = true.
Proof. reflexivity. Qed.

Example contains_other_text :
  contains "RESOURCE_EXHAUSTED" "503 UNAVAILABLE. Resource exhausted" = false.
Proof. reflexivity. Qed.

Example truthy_values :
  map truthy [PNone; PStr ""; PStr " "; PInt 0; PInt 7; PFloat (-0)%float;
              PBool false; PList []; PList [PNone]; PDict ∅] =
    [false; false; true; false; true; false; false; false; true; false].
Proof. reflexivity. Qed.

(** ** The configuration is read-only for the view *)

Create HintDb read_only.

Lemma read_only_ret {A} (a : A) : read_only (mret a).
Proof. done. Qed.

Lemma read_only_raise {A} (e : Exception) : read_only (@raise A e).
Proof. done. Qed.

Lemma read_only_eval {A} (o : outcome A) : read_only (eval o).
Proof. done. Qed.

Lemma read_only_read_llm : read_only read_llm.
Proof. done. Qed.

Lemma read_only_print line : read_only (print line).
Proof. done. Qed.

Lemma read_only_bind {A B} (m : M A) (k : A → M B) :
  read_only m → (∀ a, read_only (k a)) → read_only (m ≫= k).
Proof.
  intros Hm Hk g. specialize (Hm g).
  unfold mbind, M_bind, bind. destruct (m g) as [[a|e] g']; simpl in *.
  - by rewrite Hk.
  - done.
Qed.

Lemma read_only_try_except {A} (body : M A) (handler : Exception → M A) :
  read_only body → (∀ e, read_only (handler e)) →
  read_only (try_except body handler).
Proof.
  intros Hbody Hhandler g. specialize (Hbody g).
  unfold try_except. destruct (body g) as [[a|e] g']; simpl in *.
  - done.
  - by rewrite Hhandler.
Qed.

Lemma read_only_call_get v key : read_only (call_get v key).
Proof. by destruct v. Qed.

#[local] Hint Resolve read_only_ret read_only_raise read_only_eval
  read_only_read_llm read_only_print read_only_call_get : read_only.

Lemma chat_read_only invoke request : read_only (chat invoke request).
Proof.
  unfold chat. destruct (String.eqb _ _); [auto with read_only|].
  apply read_only_bind; [auto with read_only|].
  intros [client|]; [|auto with read_only].
  apply read_only_bind; [auto with read_only|]. intros body.
  apply read_only_bind; [auto with read_only|]. intros user_input.
  destruct (negb _); [auto with read_only|].
  apply read_only_try_except.
  - apply read_only_bind; auto with read_only.
  - intros e. apply read_only_bind; [auto with read_only|].
    intros _. destruct (contains _ _); auto with read_only.
Qed.

Lemma serve_configuration history g :
  configuration (serve history g) = configuration g.
Proof.
  revert g. induction history as [|[invoke request] rest IH]; intros g.
  - done.
  - simpl. rewrite IH. apply chat_read_only.
Qed.

Lemma serve_llm history g : llm (serve history g) = llm g.
Proof.
  pose proof (serve_configuration history g) as H.
  unfold configuration in H. congruence.
Qed.

(** ** Running the view *)

Ltac run_view :=
  unfold chat, mbind, M_bind, mret, M_ret, bind, ret, raise, read_llm, eval,
    try_except, call_get, print, with_status, jsonify;
  simpl.

(** The view on a request other than [OPTIONS], when no client was built. *)
Lemma chat_without_client invoke request g :
  method request ≠ "OPTIONS" → llm g = None →
  chat invoke request g = (Returns (mkResponse setup_error 503), g).
Proof.
  intros Hmethod Hllm. apply String.eqb_neq in Hmethod.
  run_view. by rewrite Hmethod, Hllm.
Qed.

(** The view up to the test of the message, when a client was built and the
    body is a JSON object. *)
Lemma chat_with_client invoke request g client fields :
  method request ≠ "OPTIONS" → llm g = Some client →
  json request = Returns (PDict fields) →
  chat invoke request g =
    let user_input := default PNone (fields !! "message") in
    if negb (truthy user_input) then (Returns (mkResponse no_message 400), g)
    else match invoke client user_input with
         | Returns content =>
             (Returns (mkResponse (PDict {["response" := content]}) 200), g)
         | Raises e =>
             (Returns (mkResponse
                         (if contains "RESOURCE_EXHAUSTED" (exc_str e)
                          then quota_exceeded else apology) 500),
              mkGlobals (api_key g) (llm g)
                (stdout g ++ ["Error during AI invocation: " +:+ exc_str e]))
         end.
Proof.
  intros Hmethod Hllm Hjson. apply String.eqb_neq in Hmethod.
  run_view. rewrite Hmethod, Hllm, Hjson. simpl.
  destruct (negb _); [done|].
  destruct (invoke client _) as [content|e]; [done|].
  simpl. destruct (contains _ _); by rewrite Hllm.
Qed.

(** A body that is not a JSON object has no [get]: the view raises outside
    its [try] block. *)
Lemma chat_body_not_object invoke request g client body :
  method request ≠ "OPTIONS" → llm g = Some client →
  json request = Returns body → (∀ fields, body ≠ PDict fields) →
  chat invoke request g =
    (Raises (mkException "AttributeError"
               ("'" +:+ type_name body +:+ "' object has no attribute 'get'")),
     g).
Proof.
  intros Hmethod Hllm Hjson Hbody. apply String.eqb_neq in Hmethod.
  run_view. rewrite Hmethod, Hllm, Hjson.
  destruct body; try done. by destruct (Hbody fields).
Qed.

(** An exception raised by [request.json] leaves the view as raised. *)
Lemma chat_body_unreadable invoke request g client e :
  method request ≠ "OPTIONS" → llm g = Some client →
  json request = Raises e →
  chat invoke request g = (Raises e, g).
Proof.
  intros Hmethod Hllm Hjson. apply String.eqb_neq in Hmethod.
  run_view. by rewrite Hmethod, Hllm, Hjson.
Qed.

Lemma post_not_options request : method request = "POST" → method request ≠ "OPTIONS".
Proof. by intros ->. Qed.

Lemma quota_exceeded_not_apology : quota_exceeded ≠ apology.
Proof.
  intros H.
  apply (f_equal (λ v, match v with
                       | PDict fields => fields !! "response"
                       | _ => None
                       end)) in H.
  unfold quota_exceeded, apology in H.
  by rewrite !lookup_singleton_eq in H.
Qed.

(** ** Module initialisation *)

Ltac run_init :=
  unfold startup, module_init, mbind, M_bind, mret, M_ret, bind, ret,
    try_except, eval, read_api_key, assign_api_key, assign_llm, print,
    new_ChatGoogleGenerativeAI;
  simpl.

Lemma startup_key_absent environ construct :
  environ !! "GOOGLE_API_KEY" = None →
  startup environ construct = unconfigured_globals.
Proof. intros Hkey. run_init. by rewrite Hkey. Qed.

Lemma startup_key_empty environ construct :
  environ !! "GOOGLE_API_KEY" = Some "" →
  startup environ construct =
    mkGlobals (Some "") None (stdout unconfigured_globals).
Proof. intros Hkey. run_init. by rewrite Hkey. Qed.

Lemma startup_constructed environ construct key :
  environ !! "GOOGLE_API_KEY" = Some key → key ≠ "" →
  construct (configured_client key) = None →
  startup environ construct =
    mkGlobals (Some key) (Some (configured_client key))
      ["AI Model and Flask server initialized successfully."].
Proof.
  intros Hkey Hne Hnew. apply String.eqb_neq in Hne.
  run_init. rewrite Hkey. simpl. rewrite Hne. simpl.
  fold (configured_client key). by rewrite Hnew.
Qed.

Lemma startup_constructor_raises environ construct key e :
  environ !! "GOOGLE_API_KEY" = Some key → key ≠ "" →
  construct (configured_client key) = Some e →
  startup environ construct =
    mkGlobals (Some key) None
      ["FATAL ERROR: Could not initialize AI component with API key. Error: "
       +:+ exc_str e].
Proof.
  intros Hkey Hne Hnew. apply String.eqb_neq in Hne.
  run_init. rewrite Hkey. simpl. rewrite Hne. simpl.
  fold (configured_client key). by rewrite Hnew.
Qed.

(** The [except] clause of the module at work: the exception of the
    constructor is caught, the initialisation returns, and what is left is a
    set key, no client, and the line about the exception. *)
Lemma module_init_constructor_raises environ construct key e g :
  environ !! "GOOGLE_API_KEY" = Some key → key ≠ "" →
  construct (configured_client key) = Some e →
  module_init environ construct g =
    (Returns tt,
     mkGlobals (Some key) None
       (stdout g ++
        ["FATAL ERROR: Could not initialize AI component with API key. Error: "
         +:+ exc_str e])).
Proof.
  intros Hkey Hne Hnew. apply String.eqb_neq in Hne.
  unfold module_init, mbind, M_bind, mret, M_ret, bind, ret, try_except,
    eval, read_api_key, assign_api_key, assign_llm, print,
    new_ChatGoogleGenerativeAI.
  simpl. rewrite Hkey. simpl. rewrite Hne. simpl.
  fold (configured_client key). by rewrite Hnew.
Qed.

(** Whenever a client exists after start-up, it is the one configured with
    the key of the environment, the fixed persona and the fixed temperature. *)
Lemma startup_client environ construct client :
  llm (startup environ construct) = Some client →
  ∃ key, environ !! "GOOGLE_API_KEY" = Some key ∧ key ≠ ""
         ∧ client = configured_client key.
Proof.
  destruct (environ !! "GOOGLE_API_KEY") as [key|] eqn:Hkey.
  - destruct (decide (key = "")) as [->|Hne].
    + by rewrite (startup_key_empty _ _ Hkey).
    + destruct (construct (configured_client key)) as [e|] eqn:Hnew.
      * by rewrite (startup_constructor_raises _ _ _ _ Hkey Hne Hnew).
      * rewrite (startup_constructed _ _ _ Hkey Hne Hnew). simpl.
        intros [= <-]. by exists key.
  - by rewrite (startup_key_absent _ _ Hkey).
Qed.


(** * The request/response contract *)

(** C1. A POST request handled while the client exists, whose [message] is a
    non-empty string, and to which the remote service answers with the text
    [T], gets the body [{"response": T}] with status 200; the message reaches
    the service as it was sent. *)
Theorem chat_relays_upstream_text
    invoke g client request fields message T :
  llm g = Some client →
  method request = "POST" →
  json request = Returns (PDict fields) →
  fields !! "message" = Some (PStr message) →
  message ≠ "" →
  invoke client (PStr message) = Returns (PStr T) →
  chat invoke request g =
    (Returns (mkResponse (PDict {["response" := PStr T]}) 200), g).
Proof.
  intros Hllm Hmethod Hjson Hfield Hmessage Hinvoke.
  rewrite (chat_with_client _ _ _ _ _ (post_not_options _ Hmethod) Hllm Hjson).
  rewrite Hfield. simpl. apply String.eqb_neq in Hmessage.
  by rewrite Hmessage, Hinvoke.
Qed.

Lemma chat_relays_upstream_text_witness :
  chat (answering "Hi there") hello sample_globals =
    (Returns (mkResponse (PDict {["response" := PStr "Hi there"]}) 200),
     sample_globals).
Proof.
  apply (chat_relays_upstream_text (answering "Hi there") sample_globals
           (configured_client "secret") hello
           {["message" := PStr "Hello"]} "Hello" "Hi there");
    [reflexivity | reflexivity | reflexivity | reflexivity
    | discriminate | reflexivity].
Defined.

(** C2. A POST request with a non-empty message on which the remote call
    raises an exception gets status 500; the body is the quota message exactly
    when [str(e)] contains "RESOURCE_EXHAUSTED", and the generic apology
    otherwise. *)
Theorem chat_classifies_upstream_error
    invoke g client request fields user_input e :
  llm g = Some client →
  method request = "POST" →
  json request = Returns (PDict fields) →
  fields !! "message" = Some user_input →
  truthy user_input = true →
  invoke client user_input = Raises e →
  ∃ response g',
    chat invoke request g = (Returns response, g')
    ∧ status_code response = 500%Z
    ∧ (data response = quota_exceeded
       ↔ occurs_in "RESOURCE_EXHAUSTED" (exc_str e))
    ∧ (¬ occurs_in "RESOURCE_EXHAUSTED" (exc_str e)
       → data response = apology).
Proof.
  intros Hllm Hmethod Hjson Hfield Htruthy Hinvoke.
  rewrite (chat_with_client _ _ _ _ _ (post_not_options _ Hmethod) Hllm Hjson).
  rewrite Hfield. simpl. rewrite Htruthy, Hinvoke. simpl.
  eexists _, _. split; [reflexivity|]. simpl. split; [done|].
  destruct (contains _ _) eqn:Hcontains.
  - apply contains_occurs_in in Hcontains. by split.
  - apply contains_not_occurs_in in Hcontains. split; [|done].
    split; [|done]. intros Heq. by destruct quota_exceeded_not_apology.
Qed.

Lemma chat_classifies_upstream_error_witness :
  ∃ response g',
    chat (failing quota_error) hello sample_globals = (Returns response, g')
    ∧ status_code response = 500%Z
    ∧ (data response = quota_exceeded
       ↔ occurs_in "RESOURCE_EXHAUSTED" (exc_str quota_error))
    ∧ (¬ occurs_in "RESOURCE_EXHAUSTED" (exc_str quota_error)
       → data response = apology).
Proof.
  apply (chat_classifies_upstream_error (failing quota_error) sample_globals
           (configured_client "secret") hello
           {["message" := PStr "Hello"]} (PStr "Hello") quota_error);
    reflexivity.
Defined.

(** C3. When the credential was not in the environment at start-up, every
    POST request, whatever its body (readable or not, with or without a
    message), handled after any sequence of earlier requests, gets status
    503 with the fixed configuration-error text. *)
Theorem chat_unconfigured_is_503
    environ construct history invoke request :
  environ !! "GOOGLE_API_KEY" = None →
  method request = "POST" →
  chat invoke request (serve history (startup environ construct)) =
    (Returns (mkResponse setup_error 503),
     serve history (startup environ construct)).
Proof.
  intros Hkey Hmethod.
  apply chat_without_client; [by apply post_not_options|].
  by rewrite serve_llm, (startup_key_absent _ _ Hkey).
Qed.

Lemma chat_unconfigured_is_503_witness :
  chat (answering "unused")
       (mkRequest "POST" (Raises (mkException "BadRequest" "400 Bad Request")))
       (serve [(answering "unused", hello)] (startup ∅ never_constructs)) =
    (Returns (mkResponse setup_error 503),
     serve [(answering "unused", hello)] (startup ∅ never_constructs)).
Proof.
  apply (chat_unconfigured_is_503 ∅ never_constructs
           [(answering "unused", hello)] (answering "unused")
           (mkRequest "POST"
              (Raises (mkException "BadRequest" "400 Bad Request"))));
    reflexivity.
Defined.

(** C4, as stated, fails: the test of the client comes first, so without a
    client a POST request with no message gets 503, not 400. *)
Lemma chat_missing_message_without_client :
  ¬ ∀ invoke g request fields,
      method request = "POST" →
      json request = Returns (PDict fields) →
      fields !! "message" = None ∨ fields !! "message" = Some (PStr "") →
      (chat invoke request g).1 = Returns (mkResponse no_message 400).
Proof.
  intros Hclaim.
  specialize (Hclaim (answering "unused") unconfigured_globals
                (post (PDict ∅)) ∅ eq_refl eq_refl (or_introl eq_refl)).
  rewrite chat_without_client in Hclaim by done.
  discriminate Hclaim.
Qed.

(** C4, amended. A POST request handled while the client exists, whose JSON
    object has no [message] field or an empty one, gets status 400 with the
    fixed prompt-for-input text, and the remote service is not called. *)
Theorem chat_missing_message_is_400 invoke g client request fields :
  llm g = Some client →
  method request = "POST" →
  json request = Returns (PDict fields) →
  fields !! "message" = None ∨ fields !! "message" = Some (PStr "") →
  chat invoke request g = (Returns (mkResponse no_message 400), g).
Proof.
  intros Hllm Hmethod Hjson Hfield.
  rewrite (chat_with_client _ _ _ _ _ (post_not_options _ Hmethod) Hllm Hjson).
  by destruct Hfield as [-> | ->].
Qed.

Lemma chat_missing_message_is_400_witness :
  chat (answering "unused") (post (PDict {["message" := PStr ""]}))
       sample_globals =
    (Returns (mkResponse no_message 400), sample_globals).
Proof.
  apply (chat_missing_message_is_400 (answering "unused") sample_globals
           (configured_client "secret")
           (post (PDict {["message" := PStr ""]}))
           {["message" := PStr ""]});
    [reflexivity | reflexivity | reflexivity | right; reflexivity].
Defined.

(** C5. Every exception the remote call raises is caught in the view: the
    view returns (it does not raise), its response is a JSON object with
    status 500, and one line naming the exception is printed. *)
Theorem chat_catches_upstream_exception
    invoke g client request fields user_input e :
  llm g = Some client →
  method request = "POST" →
  json request = Returns (PDict fields) →
  fields !! "message" = Some user_input →
  truthy user_input = true →
  invoke client user_input = Raises e →
  ∃ text,
    chat invoke request g =
      (Returns (mkResponse (PDict {["response" := PStr text]}) 500),
       mkGlobals (api_key g) (llm g)
         (stdout g ++ ["Error during AI invocation: " +:+ exc_str e])).
Proof.
  intros Hllm Hmethod Hjson Hfield Htruthy Hinvoke.
  rewrite (chat_with_client _ _ _ _ _ (post_not_options _ Hmethod) Hllm Hjson).
  rewrite Hfield. simpl. rewrite Htruthy, Hinvoke. simpl.
  destruct (contains _ _); eexists; reflexivity.
Qed.

Lemma chat_catches_upstream_exception_witness :
  ∃ text,
    chat (failing (mkException "TimeoutError" "timed out")) hello
         sample_globals =
      (Returns (mkResponse (PDict {["response" := PStr text]}) 500),
       mkGlobals (Some "secret") (Some (configured_client "secret"))
         ["Error during AI invocation: timed out"]).
Proof.
  apply (chat_catches_upstream_exception
           (failing (mkException "TimeoutError" "timed out")) sample_globals
           (configured_client "secret") hello
           {["message" := PStr "Hello"]} (PStr "Hello")
           (mkException "TimeoutError" "timed out"));
    reflexivity.
Defined.

(** C6, as stated, fails: on a POST request whose JSON body is an array the
    view raises [AttributeError] at [request.json.get], outside its [try]
    block, and returns no response. *)
Lemma chat_array_body_raises :
  ¬ ∀ invoke g request,
      method request = "POST" →
      ∃ response g',
        chat invoke request g = (Returns response, g')
        ∧ status_code response ∈ [200; 400; 500; 503]%Z.
Proof.
  intros Hclaim.
  destruct (Hclaim (answering "unused") sample_globals (post (PList []))
              eq_refl) as (response & g' & Hchat & _).
  rewrite (chat_body_not_object _ _ _ (configured_client "secret") (PList []))
    in Hchat by done.
  discriminate Hchat.
Qed.

(** C6, amended. On a POST request the view returns a response with status
    200, 400, 500 or 503 whenever no client exists or the body is a JSON
    object. *)
Theorem chat_post_status invoke g request :
  method request = "POST" →
  llm g = None ∨ (∃ fields, json request = Returns (PDict fields)) →
  ∃ response g',
    chat invoke request g = (Returns response, g')
    ∧ status_code response ∈ [200; 400; 500; 503]%Z.
Proof.
  intros Hmethod%post_not_options Hcase.
  destruct (llm g) as [client|] eqn:Hllm.
  - destruct Hcase as [?|[fields Hjson]]; [done|].
    rewrite (chat_with_client _ _ _ _ _ Hmethod Hllm Hjson). simpl.
    destruct (negb _).
    { eexists _, _. split; [reflexivity|]. simpl. repeat constructor. }
    destruct (invoke client _) as [content|e];
      eexists _, _; (split; [reflexivity|]); simpl; repeat constructor.
  - rewrite (chat_without_client _ _ _ Hmethod Hllm).
    eexists _, _. split; [reflexivity|]. simpl. repeat constructor.
Qed.

Lemma chat_post_status_witness :
  ∃ response g',
    chat (failing quota_error) hello sample_globals = (Returns response, g')
    ∧ status_code response ∈ [200; 400; 500; 503]%Z.
Proof.
  apply (chat_post_status (failing quota_error) sample_globals hello);
    [reflexivity | right; exists {["message" := PStr "Hello"]}; reflexivity].
Defined.

(** C7. An OPTIONS request gets status 200 and the empty JSON object, whether
    or not a key is set and whether or not a client exists, and whatever its
    body. *)
Theorem chat_options_is_200 invoke g request :
  method request = "OPTIONS" →
  chat invoke request g = (Returns (mkResponse (PDict ∅) 200), g).
Proof. intros Hmethod. run_view. by rewrite Hmethod. Qed.

Lemma chat_options_is_200_witness :
  chat (failing quota_error) preflight unconfigured_globals =
    (Returns (mkResponse (PDict ∅) 200), unconfigured_globals).
Proof.
  apply (chat_options_is_200 (failing quota_error) unconfigured_globals
           preflight).
  reflexivity.
Defined.


(** C9. A key present in the environment but empty counts as no key: the
    module prints the same message as for an absent key, builds no client,
    and every POST request, after any sequence of earlier requests, gets the
    503 configuration-error response. *)
Theorem empty_key_disables_chat environ construct :
  environ !! "GOOGLE_API_KEY" = Some "" →
  llm (startup environ construct) = None
  ∧ stdout (startup environ construct) = stdout (startup ∅ construct)
  ∧ ∀ history invoke request,
      method request = "POST" →
      chat invoke request (serve history (startup environ construct)) =
        (Returns (mkResponse setup_error 503),
         serve history (startup environ construct)).
Proof.
  intros Hkey. rewrite (startup_key_empty _ _ Hkey).
  split; [done|]. split.
  - by rewrite (startup_key_absent ∅ construct).
  - intros history invoke request Hmethod.
    apply chat_without_client; [by apply post_not_options|].
    by rewrite serve_llm.
Qed.

Lemma empty_key_disables_chat_witness :
  llm (startup {["GOOGLE_API_KEY" := ""]} (λ _, None)) = None
  ∧ stdout (startup {["GOOGLE_API_KEY" := ""]} (λ _, None)) =
      stdout (startup ∅ (λ _, None))
  ∧ ∀ history invoke request,
      method request = "POST" →
      chat invoke request
           (serve history (startup {["GOOGLE_API_KEY" := ""]} (λ _, None))) =
        (Returns (mkResponse setup_error 503),
         serve history (startup {["GOOGLE_API_KEY" := ""]} (λ _, None))).
Proof.
  apply (empty_key_disables_chat {["GOOGLE_API_KEY" := ""]} (λ _, None)).
  reflexivity.
Defined.

(** C10. When a non-empty key is present and the constructor of the client
    raises an exception, the module's [except] clause catches it: the
    initialisation returns instead of raising, having printed the line about
    the exception, so the application starts.  The key stays set but no
    client exists, and every POST request gets the same 503 response as when
    the key is absent; the view gives that response in any state without a
    client, whatever the key. *)
Theorem constructor_failure_disables_chat environ construct key e :
  environ !! "GOOGLE_API_KEY" = Some key →
  key ≠ "" →
  construct (configured_client key) = Some e →
  module_init environ construct (mkGlobals None None []) =
    (Returns tt,
     mkGlobals (Some key) None
       ["FATAL ERROR: Could not initialize AI component with API key. Error: "
        +:+ exc_str e])
  ∧ api_key (startup environ construct) = Some key
  ∧ llm (startup environ construct) = None
  ∧ (∀ history invoke request,
       method request = "POST" →
       chat invoke request (serve history (startup environ construct)) =
         (Returns (mkResponse setup_error 503),
          serve history (startup environ construct)))
  ∧ (∀ invoke request g,
       method request = "POST" → llm g = None →
       chat invoke request g = (Returns (mkResponse setup_error 503), g)).
Proof.
  intros Hkey Hne Hnew.
  split; [by rewrite (module_init_constructor_raises _ _ _ _ _ Hkey Hne Hnew)|].
  rewrite (startup_constructor_raises _ _ _ _ Hkey Hne Hnew).
  split; [done|]. split; [done|]. split.
  - intros history invoke request Hmethod.
    apply chat_without_client; [by apply post_not_options|].
    by rewrite serve_llm.
  - intros invoke request g Hmethod Hllm.
    apply chat_without_client; [by apply post_not_options | done].
Qed.

Lemma constructor_failure_disables_chat_witness :
  module_init {["GOOGLE_API_KEY" := "secret"]} never_constructs
              (mkGlobals None None []) =
    (Returns tt,
     mkGlobals (Some "secret") None
       ["FATAL ERROR: Could not initialize AI component with API key. Error: 1 validation error"])
  ∧ api_key (startup {["GOOGLE_API_KEY" := "secret"]} never_constructs) =
      Some "secret"
  ∧ llm (startup {["GOOGLE_API_KEY" := "secret"]} never_constructs) = None
  ∧ (∀ history invoke request,
       method request = "POST" →
       chat invoke request
            (serve history
               (startup {["GOOGLE_API_KEY" := "secret"]} never_constructs)) =
         (Returns (mkResponse setup_error 503),
          serve history
            (startup {["GOOGLE_API_KEY" := "secret"]} never_constructs)))
  ∧ (∀ invoke request g,
       method request = "POST" → llm g = None →
       chat invoke request g = (Returns (mkResponse setup_error 503), g)).
Proof.
  apply (constructor_failure_disables_chat
           {["GOOGLE_API_KEY" := "secret"]} never_constructs "secret"
           (mkException "ValidationError" "1 validation error"));
    [reflexivity | discriminate | reflexivity].
Defined.

(** * Further properties of the module *)

(** ** The view, case by case *)

Lemma chat_on_options invoke request g :
  method request = "OPTIONS" →
  chat invoke request g = (Returns (mkResponse (PDict ∅) 200), g).
Proof. intros Hmethod. run_view. by rewrite Hmethod. Qed.

(** The view always takes one of the seven ways. *)
Lemma chat_case_of invoke request g :
  chat_case invoke request g (chat invoke request g).
Proof.
  destruct (decide (method request = "OPTIONS")) as [Hmethod|Hmethod].
  { rewrite chat_on_options by done. by constructor. }
  destruct (llm g) as [client|] eqn:Hllm; cycle 1.
  { rewrite chat_without_client by done. by constructor. }
  destruct (json request) as [body|e] eqn:Hjson; cycle 1.
  { rewrite (chat_body_unreadable _ _ _ client e) by done.
    by econstructor. }
  assert ((∃ fields, body = PDict fields) ∨ ∀ fields, body ≠ PDict fields)
    as [[fields ->]|Hbody] by (destruct body; eauto).
  - rewrite (chat_with_client _ _ _ client fields) by done.
    fold (message_of fields). simpl.
    destruct (truthy (message_of fields)) eqn:Htruthy; simpl.
    + destruct (invoke client (message_of fields)) as [content|e] eqn:Hinvoke.
      * by eapply case_answer.
      * by eapply case_failure.
    + by eapply case_no_message.
  - rewrite (chat_body_not_object _ _ _ client body) by done.
    by eapply case_not_object.
Qed.

Lemma message_of_truthy fields :
  truthy (message_of fields) = true →
  ∃ user_input, fields !! "message" = Some user_input
                ∧ message_of fields = user_input.
Proof.
  unfold message_of. destruct (fields !! "message") as [v|]; [eauto|done].
Qed.

Lemma handle_read_only c : read_only (handle c).
Proof. destruct c; [done | apply chat_read_only]. Qed.

Lemma run_configuration calls g :
  configuration (run calls g) = configuration g.
Proof.
  revert g. induction calls as [|c rest IH]; intros g; [done|].
  simpl. rewrite IH. apply handle_read_only.
Qed.

(** The worker of chat requests is the general worker on chat calls. *)
Lemma serve_as_run history g :
  serve history g = run (map (λ ir, Chat ir.1 ir.2) history) g.
Proof.
  revert g. induction history as [|[invoke request] rest IH]; intros g;
    [done | apply IH].
Qed.

Lemma run_llm calls g : llm (run calls g) = llm g.
Proof.
  pose proof (run_configuration calls g) as H.
  unfold configuration in H. congruence.
Qed.

(** ** Module initialisation, further *)

(** X1. Importing the module never fails: whatever the environment holds and
    whatever the constructor of the client does, the initialisation returns,
    has set the key to the environment's, and has printed exactly one line. *)
Theorem module_init_completes environ construct g :
  ∃ client line,
    module_init environ construct g =
      (Returns tt,
       mkGlobals (environ !! "GOOGLE_API_KEY") client (stdout g ++ [line])).
Proof.
  unfold module_init, mbind, M_bind, mret, M_ret, bind, ret, try_except,
    eval, read_api_key, assign_api_key, assign_llm, print,
    new_ChatGoogleGenerativeAI.
  simpl. destruct (environ !! "GOOGLE_API_KEY") as [key|]; simpl.
  - destruct (negb (negb _)); simpl; [by eexists _, _|].
    destruct (construct _); simpl; by eexists _, _.
  - by eexists _, _.
Qed.

(** X2. A client exists after start-up exactly when the environment holds a
    non-empty key and the constructor did not raise on the arguments built
    from it. *)
Theorem client_exists_iff environ construct :
  is_Some (llm (startup environ construct))
  ↔ ∃ key, environ !! "GOOGLE_API_KEY" = Some key ∧ key ≠ ""
           ∧ construct (configured_client key) = None.
Proof.
  split.
  - intros [client Hllm].
    destruct (startup_client _ _ _ Hllm) as (key & Hkey & Hne & ->).
    exists key. split; [done|]. split; [done|].
    destruct (construct (configured_client key)) as [e|] eqn:Hnew; [|done].
    by rewrite (startup_constructor_raises _ _ _ _ Hkey Hne Hnew) in Hllm.
  - intros (key & Hkey & Hne & Hnew).
    by rewrite (startup_constructed _ _ _ Hkey Hne Hnew).
Qed.

(** X3. From the environment to the answer: with a non-empty key and a
    constructor that does not raise, a POST request with a non-empty string
    message, handled after any earlier index and chat requests, gets status
    200 and the text the remote service returned to the client built at
    start-up. *)
Theorem configured_app_answers
    environ construct key calls invoke request fields message T :
  environ !! "GOOGLE_API_KEY" = Some key →
  key ≠ "" →
  construct (configured_client key) = None →
  method request = "POST" →
  json request = Returns (PDict fields) →
  fields !! "message" = Some (PStr message) →
  message ≠ "" →
  invoke (configured_client key) (PStr message) = Returns (PStr T) →
  (chat invoke request (run calls (startup environ construct))).1 =
    Returns (mkResponse (PDict {["response" := PStr T]}) 200).
Proof.
  intros Hkey Hne Hnew Hmethod Hjson Hfield Hmessage Hinvoke.
  assert (llm (run calls (startup environ construct)) =
            Some (configured_client key)) as Hllm.
  { by rewrite run_llm, (startup_constructed _ _ _ Hkey Hne Hnew). }
  rewrite (chat_with_client _ _ _ _ _ (post_not_options _ Hmethod) Hllm Hjson).
  rewrite Hfield. simpl. apply String.eqb_neq in Hmessage.
  by rewrite Hmessage, Hinvoke.
Qed.

Lemma configured_app_answers_witness :
  (chat (answering "Hi there") hello
        (run [GetIndex page; Chat (failing quota_error) hello]
             (startup {["GOOGLE_API_KEY" := "secret"]} (λ _, None)))).1 =
    Returns (mkResponse (PDict {["response" := PStr "Hi there"]}) 200).
Proof.
  apply (configured_app_answers {["GOOGLE_API_KEY" := "secret"]} (λ _, None)
           "secret" [GetIndex page; Chat (failing quota_error) hello]
           (answering "Hi there") hello {["message" := PStr "Hello"]}
           "Hello" "Hi there");
    [reflexivity | discriminate | reflexivity | reflexivity | reflexivity
    | reflexivity | discriminate | reflexivity].
Defined.

(** ** The message test *)

(** X4. With a client and a JSON object as body, a POST request gets the 400
    response exactly when the value under [message] is falsy: absent, [null],
    [false], a zero, or an empty string, array or object. *)
Theorem chat_400_iff_falsy invoke g client request fields :
  llm g = Some client →
  method request = "POST" →
  json request = Returns (PDict fields) →
  chat invoke request g = (Returns (mkResponse no_message 400), g)
  ↔ truthy (message_of fields) = false.
Proof.
  intros Hllm Hmethod Hjson.
  rewrite (chat_with_client _ _ _ _ _ (post_not_options _ Hmethod) Hllm Hjson).
  fold (message_of fields). simpl.
  destruct (truthy (message_of fields)); simpl; [|done].
  split; [|done].
  destruct (invoke client (message_of fields)); intros [=].
Qed.

Lemma chat_400_iff_falsy_witness :
  chat (answering "unused") (post (PDict {["message" := PInt 0]}))
       sample_globals =
    (Returns (mkResponse no_message 400), sample_globals)
  ↔ truthy (message_of {["message" := PInt 0]}) = false.
Proof.
  apply (chat_400_iff_falsy (answering "unused") sample_globals
           (configured_client "secret")
           (post (PDict {["message" := PInt 0]})) {["message" := PInt 0]});
    reflexivity.
Defined.

(** X5. The view checks neither the type of the message nor that of the
    answer: any truthy value under [message], string or not, is passed to the
    remote call as it is, and whatever content the call returns is relayed
    under [response] with status 200. *)
Theorem chat_forwards_any_value
    invoke g client request fields user_input content :
  llm g = Some client →
  method request = "POST" →
  json request = Returns (PDict fields) →
  fields !! "message" = Some user_input →
  truthy user_input = true →
  invoke client user_input = Returns content →
  chat invoke request g =
    (Returns (mkResponse (PDict {["response" := content]}) 200), g).
Proof.
  intros Hllm Hmethod Hjson Hfield Htruthy Hinvoke.
  rewrite (chat_with_client _ _ _ _ _ (post_not_options _ Hmethod) Hllm Hjson).
  rewrite Hfield. simpl. by rewrite Htruthy, Hinvoke.
Qed.

Lemma chat_forwards_any_value_witness :
  chat (relaying (PList [PStr "a"; PDict ∅]))
       (post (PDict {["message" := PInt 5]})) sample_globals =
    (Returns (mkResponse
                (PDict {["response" := PList [PStr "a"; PDict ∅]]}) 200),
     sample_globals).
Proof.
  apply (chat_forwards_any_value (relaying (PList [PStr "a"; PDict ∅]))
           sample_globals (configured_client "secret")
           (post (PDict {["message" := PInt 5]})) {["message" := PInt 5]}
           (PInt 5) (PList [PStr "a"; PDict ∅]));
    reflexivity.
Defined.

(** ** Reading a response back *)

(** X6. A 200 response to a POST request can only come from the remote
    service: a client exists, the body is a JSON object with a truthy
    message, the remote call on that message returned, the response carries
    what it returned, and the globals are as before. *)
Theorem chat_200_comes_from_upstream invoke request g response g' :
  method request = "POST" →
  chat invoke request g = (Returns response, g') →
  status_code response = 200%Z →
  g' = g
  ∧ ∃ client fields user_input content,
      llm g = Some client
      ∧ json request = Returns (PDict fields)
      ∧ fields !! "message" = Some user_input
      ∧ truthy user_input = true
      ∧ invoke client user_input = Returns content
      ∧ data response = PDict {["response" := content]}.
Proof.
  intros Hmethod Hchat Hstatus.
  pose proof (chat_case_of invoke request g) as Hcase.
  rewrite Hchat in Hcase.
  inversion Hcase as
    [Hoptions | | | | | ? fields content ? Hllm Hjson Htruthy Hinvoke | ];
    subst; simpl in *; try done.
  - by rewrite Hmethod in Hoptions.
  - split; [done|].
    destruct (message_of_truthy _ Htruthy) as (user_input & Hfield & Heq).
    rewrite Heq in *. by eexists _, fields, user_input, content.
Qed.

Lemma chat_200_comes_from_upstream_witness :
  sample_globals = sample_globals
  ∧ ∃ client fields user_input content,
      llm sample_globals = Some client
      ∧ json hello = Returns (PDict fields)
      ∧ fields !! "message" = Some user_input
      ∧ truthy user_input = true
      ∧ answering "Hi there" client user_input = Returns content
      ∧ data (mkResponse (PDict {["response" := PStr "Hi there"]}) 200) =
          PDict {["response" := content]}.
Proof.
  apply (chat_200_comes_from_upstream (answering "Hi there") hello
           sample_globals
           (mkResponse (PDict {["response" := PStr "Hi there"]}) 200)
           sample_globals);
    reflexivity.
Defined.

(** X7. A 500 response of the view always has a cause and a trace: the
    remote call raised an exception, the body is one of the two fixed texts,
    and the line naming the exception is the one line added to the output. *)
Theorem chat_500_comes_from_failure invoke request g response g' :
  chat invoke request g = (Returns response, g') →
  status_code response = 500%Z →
  ∃ client fields e,
    llm g = Some client
    ∧ json request = Returns (PDict fields)
    ∧ invoke client (message_of fields) = Raises e
    ∧ (data response = quota_exceeded ∨ data response = apology)
    ∧ g' = logged e g.
Proof.
  intros Hchat Hstatus.
  pose proof (chat_case_of invoke request g) as Hcase.
  rewrite Hchat in Hcase.
  inversion Hcase as [ | | | | | | client fields e ? Hllm Hjson ? Hinvoke];
    subst; simpl in *; try done.
  exists client, fields, e. repeat (split; [done|]).
  split; [|done]. destruct (contains _ _); [by left | by right].
Qed.

Lemma chat_500_comes_from_failure_witness :
  ∃ client fields e,
    llm sample_globals = Some client
    ∧ json hello = Returns (PDict fields)
    ∧ failing quota_error client (message_of fields) = Raises e
    ∧ (data (mkResponse quota_exceeded 500) = quota_exceeded
       ∨ data (mkResponse quota_exceeded 500) = apology)
    ∧ logged quota_error sample_globals = logged e sample_globals.
Proof.
  apply (chat_500_comes_from_failure (failing quota_error) hello
           sample_globals (mkResponse quota_exceeded 500)
           (logged quota_error sample_globals));
    reflexivity.
Defined.

(** ** When the view raises *)

(** X8. The view raises exactly when the request is not OPTIONS, a client
    exists, and either [request.json] raises (the same exception leaves the
    view) or the body is not a JSON object ([AttributeError]); it then has
    printed nothing and changed nothing. *)
Theorem chat_raises_iff invoke request g e g' :
  chat invoke request g = (Raises e, g')
  ↔ g' = g
    ∧ method request ≠ "OPTIONS"
    ∧ is_Some (llm g)
    ∧ (json request = Raises e
       ∨ ∃ body, json request = Returns body
                 ∧ (∀ fields, body ≠ PDict fields)
                 ∧ e = no_get body).
Proof.
  split.
  - intros Hchat. pose proof (chat_case_of invoke request g) as Hcase.
    rewrite Hchat in Hcase.
    inversion Hcase as
      [ | | client ? Hmethod Hllm Hjson
        | client body Hmethod Hllm Hjson Hbody | | | ]; subst.
    + repeat (split; [done|]). by left.
    + repeat (split; [done|]). right. by exists body.
  - intros (-> & Hmethod & [client Hllm] & [Hjson|(body & Hjson & Hbody & ->)]).
    + by apply (chat_body_unreadable _ _ _ client).
    + by apply (chat_body_not_object _ _ _ client).
Qed.

(** ** What the view does not depend on *)

(** X9. The remote service is not consulted on an OPTIONS request, nor when
    no client exists, nor when the body is not a JSON object with a truthy
    message: the result is then the same whatever the service would do. *)
Theorem chat_ignores_upstream invoke invoke' request g :
  method request = "OPTIONS"
  ∨ llm g = None
  ∨ (∀ fields, json request = Returns (PDict fields) →
               truthy (message_of fields) = false) →
  chat invoke request g = chat invoke' request g.
Proof.
  intros Hidle.
  destruct (decide (method request = "OPTIONS")) as [Hmethod|Hmethod].
  { by rewrite !chat_on_options. }
  destruct (llm g) as [client|] eqn:Hllm; cycle 1.
  { by rewrite !chat_without_client. }
  destruct Hidle as [?|[?|Hfalsy]]; [done..|].
  destruct (json request) as [body|e] eqn:Hjson; cycle 1.
  { by rewrite !(chat_body_unreadable _ _ _ client e). }
  assert ((∃ fields, body = PDict fields) ∨ ∀ fields, body ≠ PDict fields)
    as [[fields ->]|Hbody] by (destruct body; eauto).
  - rewrite !(chat_with_client _ _ _ client fields) by done.
    fold (message_of fields). simpl. by rewrite (Hfalsy fields).
  - by rewrite !(chat_body_not_object _ _ _ client body).
Qed.

Lemma chat_ignores_upstream_witness :
  chat (answering "Hi there") (post (PDict {["message" := PStr ""]}))
       sample_globals =
  chat (failing quota_error) (post (PDict {["message" := PStr ""]}))
       sample_globals.
Proof.
  apply (chat_ignores_upstream (answering "Hi there") (failing quota_error)
           (post (PDict {["message" := PStr ""]})) sample_globals).
  right. right. intros fields [= <-]. reflexivity.
Defined.

Lemma chat_response_depends_on_llm invoke request g1 g2 :
  llm g1 = llm g2 →
  (chat invoke request g1).1 = (chat invoke request g2).1.
Proof.
  intros Hllm.
  pose proof (chat_case_of invoke request g1) as Hcase.
  inversion Hcase as
    [ Hmethod Heq | Hmethod Hnone Heq | client e Hmethod Hsome Hjson Heq
    | client body Hmethod Hsome Hjson Hbody Heq
    | client fields Hmethod Hsome Hjson Htruthy Heq
    | client fields content Hmethod Hsome Hjson Htruthy Hinvoke Heq
    | client fields e Hmethod Hsome Hjson Htruthy Hinvoke Heq ];
    clear Heq Hcase; simpl;
    try rewrite Hllm in Hnone; try rewrite Hllm in Hsome.
  - by rewrite chat_on_options.
  - by rewrite chat_without_client.
  - by rewrite (chat_body_unreadable _ _ _ client e).
  - by rewrite (chat_body_not_object _ _ _ client body).
  - rewrite (chat_with_client _ _ _ client fields) by done.
    fold (message_of fields). simpl. by rewrite Htruthy.
  - rewrite (chat_with_client _ _ _ client fields) by done.
    fold (message_of fields). simpl. by rewrite Htruthy, Hinvoke.
  - rewrite (chat_with_client _ _ _ client fields) by done.
    fold (message_of fields). simpl. by rewrite Htruthy, Hinvoke.
Qed.

(** X10. The view keeps no memory: the response to a request (or the
    exception raised) is the same after any earlier index and chat requests
    as before them, and does not depend on the key or on what was printed,
    only on the client. *)
Theorem chat_response_is_stateless invoke request calls g key output :
  (chat invoke request (run calls g)).1 = (chat invoke request g).1
  ∧ (chat invoke request (mkGlobals key (llm g) output)).1 =
      (chat invoke request g).1.
Proof.
  split; apply chat_response_depends_on_llm; [apply run_llm | done].
Qed.

(** ** What the view changes *)

Lemma chat_globals_cases invoke request g :
  (chat invoke request g).2 = g
  ∨ ∃ e response,
      chat invoke request g = (Returns response, logged e g)
      ∧ status_code response = 500%Z.
Proof.
  pose proof (chat_case_of invoke request g) as Hcase.
  inversion Hcase; try (by left).
  right. by eexists _, _.
Qed.

(** X11. Handling a chat request either leaves the globals exactly as they
    were, or it answered 500 and the only change is the one line printed
    about the exception of the remote call. *)
Theorem chat_touches_only_output invoke request g :
  (chat invoke request g).2 = g
  ∨ ∃ e response,
      chat invoke request g = (Returns response, logged e g)
      ∧ status_code response = 500%Z.
Proof. apply chat_globals_cases. Qed.

Lemma handle_output c g :
  ∃ lines : list string,
    stdout (handle c g).2 = (stdout g ++ lines)%list ∧ (length lines ≤ 1)%nat.
Proof.
  destruct c as [send_file|invoke request]; simpl.
  - exists []. split; [by rewrite app_nil_r | simpl; lia].
  - destruct (chat_globals_cases invoke request g)
      as [->|(e & response & -> & _)].
    + exists []. split; [by rewrite app_nil_r | simpl; lia].
    + eexists [_]. split; [reflexivity | simpl; lia].
Qed.

(** X12. The output only grows, by at most one line per request: after any
    sequence of index and chat requests the earlier output is still there,
    followed by no more lines than requests were handled. *)
Theorem run_output_grows calls g :
  ∃ lines : list string,
    stdout (run calls g) = (stdout g ++ lines)%list
    ∧ (length lines ≤ length calls)%nat.
Proof.
  revert g. induction calls as [|c rest IH]; intros g; simpl.
  - exists []. split; [by rewrite app_nil_r | simpl; lia].
  - destruct (handle_output c g) as (first & Hfirst & Hone).
    destruct (IH (handle c g).2) as (more & Hmore & Hlen).
    exists (first ++ more)%list. split.
    + by rewrite Hmore, Hfirst, app_assoc.
    + rewrite length_app. lia.
Qed.

(** X13. The index view hands back what [send_file("index.html")] yields,
    response or exception, in any state of the globals, with or without a
    client; and any mix of index and chat requests leaves the key and the
    client as they were. *)
Theorem index_served_in_any_state send_file calls g :
  serve_index send_file (run calls g) =
    (send_file "index.html", run calls g)
  ∧ api_key (run calls g) = api_key g
  ∧ llm (run calls g) = llm g.
Proof.
  split; [done|].
  pose proof (run_configuration calls g) as H. unfold configuration in H.
  split; congruence.
Qed.

(** X14. The success line is printed at start-up exactly when a client was
    built; in every other case the one line printed is a FATAL ERROR line. *)
Theorem success_line_iff_client environ construct :
  (stdout (startup environ construct) =
     ["AI Model and Flask server initialized successfully."]
   ↔ is_Some (llm (startup environ construct)))
  ∧ (stdout (startup environ construct) =
       ["AI Model and Flask server initialized successfully."]
     ∨ ∃ rest, stdout (startup environ construct) =
                 ["FATAL ERROR: " +:+ rest]).
Proof.
  destruct (environ !! "GOOGLE_API_KEY") as [key|] eqn:Hkey.
  - destruct (decide (key = "")) as [->|Hne].
    + rewrite (startup_key_empty _ _ Hkey). simpl. split.
      * split; [discriminate | by intros [? ?]].
      * right. by eexists.
    + destruct (construct (configured_client key)) as [e|] eqn:Hnew.
      * rewrite (startup_constructor_raises _ _ _ _ Hkey Hne Hnew). simpl.
        split.
        -- split; [discriminate | by intros [? ?]].
        -- right.
           by exists ("Could not initialize AI component with API key. Error: "
                      +:+ exc_str e).
      * rewrite (startup_constructed _ _ _ Hkey Hne Hnew). simpl. split.
        -- split; [by eexists | done].
        -- by left.
  - rewrite (startup_key_absent _ _ Hkey). simpl. split.
    + split; [discriminate | by intros [? ?]].
    + right. by eexists.
Qed.

(** ** The shape of the answers *)

(** X15. Every response of the view to a request other than OPTIONS is a
    JSON object with the single field [response], whatever the status. *)
Theorem chat_response_has_response_field invoke request g response g' :
  method request ≠ "OPTIONS" →
  chat invoke request g = (Returns response, g') →
  ∃ v, data response = PDict {["response" := v]}.
Proof.
  intros Hmethod Hchat.
  pose proof (chat_case_of invoke request g) as Hcase.
  rewrite Hchat in Hcase.
  inversion Hcase; subst; simpl; try done; try (by eexists).
  destruct (contains _ _); by eexists.
Qed.

Lemma chat_response_has_response_field_witness :
  ∃ v, data (mkResponse apology 500) = PDict {["response" := v]}.
Proof.
  apply (chat_response_has_response_field
           (failing (mkException "TimeoutError" "timed out")) hello
           sample_globals (mkResponse apology 500)
           (logged (mkException "TimeoutError" "timed out") sample_globals));
    [discriminate | reflexivity].
Defined.

(** X16. On a request other than OPTIONS, status 503 tells that no client
    exists, and nothing else does: the response has status 503 exactly when
    [llm] is [None]. *)
Theorem chat_503_iff_no_client invoke request g response g' :
  method request ≠ "OPTIONS" →
  chat invoke request g = (Returns response, g') →
  status_code response = 503%Z ↔ llm g = None.
Proof.
  intros Hmethod Hchat.
  pose proof (chat_case_of invoke request g) as Hcase.
  rewrite Hchat in Hcase.
  inversion Hcase; subst; simpl; try done; split; congruence.
Qed.

Lemma chat_503_iff_no_client_witness :
  status_code (mkResponse setup_error 503) = 503%Z
  ↔ llm unconfigured_globals = None.
Proof.
  apply (chat_503_iff_no_client (answering "unused") hello
           unconfigured_globals (mkResponse setup_error 503)
           unconfigured_globals);
    [discriminate | reflexivity].
Defined.
